(** * The Gemini provider adapter ([src/services/gemini.ts])

    A shallow embedding of the adapter module: the lazily created client
    handle, the four exported operations and the private [blobToBase64]
    helper.  The module is glue around three capabilities it does not own
    (the provider SDK, the host's [FileReader], the process environment);
    these are gathered in a [Host] record and every operation is a
    computation in a small state / exception / trace monad, so that the
    request handed to the provider is observable as an emitted event. *)

From Stdlib Require Import String Ascii List Bool Lia.
From Stdlib.Strings Require Import Byte.
Import ListNotations.
Local Open Scope string_scope.
Local Open Scope list_scope.

Set Implicit Arguments.

(** ** JavaScript values the module manipulates *)

(** Values that travel through [throw] / promise rejection. *)
Inductive JsError : Type :=
| ProgressEvent (type : string) (errorName : string)
| TypeError (message : string)
| ApiError (status : nat) (message : string)
| OtherError (message : string).

(** [x || d] where [x : string | undefined]: the empty string and
    [undefined] are the falsy values. *)
Definition truthy (x : option string) : bool :=
  match x with
  | None => false
  | Some EmptyString => false
  | Some (String _ _) => true
  end.

Definition js_or (x : option string) (d : string) : string :=
  match x with
  | Some v => if truthy x then v else d
  | None => d
  end.

(** [s.split(sep)] for a one-character separator: always at least one
    piece, one more piece than there are separators. *)
Fixpoint split (sep : ascii) (s : string) : list string :=
  match s with
  | EmptyString => [EmptyString]
  | String c rest =>
      if Ascii.eqb c sep then EmptyString :: split sep rest
      else match split sep rest with
           | [] => [String c EmptyString]
           | piece :: pieces => String c piece :: pieces
           end
  end.

(** [xs[i]]: [undefined] (here [None]) when out of range. *)
Definition index {A : Type} (xs : list A) (i : nat) : option A := nth_error xs i.

Definition comma : ascii := ","%char.

(** ** The SDK's request and response shapes *)

Inductive SchemaType : Type :=
| OBJECT | STRING | NUMBER | INTEGER | BOOLEAN | ARRAY.

#[warnings="-register-all"]
Inductive Schema : Type :=
| mkSchema (type : SchemaType) (description : option string)
           (properties : list (string * Schema)) (required : list string).

Definition schema_type (s : Schema) : SchemaType :=
  let 'mkSchema t _ _ _ := s in t.
Definition schema_description (s : Schema) : option string :=
  let 'mkSchema _ d _ _ := s in d.
Definition schema_properties (s : Schema) : list (string * Schema) :=
  let 'mkSchema _ _ p _ := s in p.
Definition schema_required (s : Schema) : list string :=
  let 'mkSchema _ _ _ r := s in r.

Record FunctionDeclaration : Type := {
  fd_name : string;
  fd_description : string;
  fd_parameters : Schema
}.

Record Tool : Type := { functionDeclarations : list FunctionDeclaration }.

(** A content part: text, or inline data.  [data] is optional because
    the adapter may place [undefined] there (see [blobToBase64]). *)
Inductive Part : Type :=
| PartText (text : string)
| PartInlineData (mimeType : string) (data : option string).

Record Content : Type := { role : string; content_parts : list Part }.

Record GenerateContentConfig : Type := {
  systemInstruction : option string;
  tools : option (list Tool);
  responseMimeType : option string;
  responseSchema : option Schema
}.

Record CreateChatParameters : Type := {
  cc_model : string;
  cc_history : option (list Content);
  cc_config : option GenerateContentConfig
}.

(** [gc_parts] is [contents.parts]: the module always passes [contents]
    as one object holding a [parts] array. *)
Record GenerateContentParameters : Type := {
  gc_model : string;
  gc_parts : list Part;
  gc_config : option GenerateContentConfig
}.

Record GenerateContentResponse : Type := {
  resp_text : option string;
  resp_parts : list Part
}.

(** A chat session is opaque to the adapter. *)
Record Chat : Type := { chat_session : nat }.

(** A client handle: an object (identity [client_id]) bound to a credential. *)
Record GoogleGenAI : Type := {
  client_id : nat;
  apiKey : option string
}.

Record Blob : Type := {
  blob_type : string;
  blob_bytes : list byte
}.

Record Transcription : Type := { text : string }.

(** ** Effects *)

Inductive Outcome (A : Type) : Type :=
| Ok (value : A)
| Throw (e : JsError)
| Pending.
Arguments Throw {A} e.
Arguments Pending {A}.

(** What the host's reader ends with: [load] with a data URL, or [error]. *)
Inductive ReadResult : Type :=
| ReadOk (dataUrl : string)
| ReadError (ev : JsError).

(** The capabilities the module consumes.  [host_new_GoogleGenAI key] is
    what the SDK's constructor does when handed [key]: [None] when it
    builds the client, [Some e] when it throws [e] (the browser build of
    the SDK throws on a missing key, the server build does not). *)
Record Host : Type := {
  host_GEMINI_API_KEY : option string;
  host_new_GoogleGenAI : option string -> option JsError;
  host_readAsDataURL : Blob -> ReadResult;
  host_chats_create : GoogleGenAI -> CreateChatParameters -> Outcome Chat;
  host_generateContent :
    GoogleGenAI -> GenerateContentParameters -> Outcome GenerateContentResponse
}.

(** Everything the module does that is visible outside it. *)
Inductive Event : Type :=
| EConstruct (h : GoogleGenAI)
| EChatsCreate (h : GoogleGenAI) (p : CreateChatParameters)
| EGenerateContent (h : GoogleGenAI) (p : GenerateContentParameters)
| EReadAsDataURL (b : Blob)
| EConsoleError (message : string) (e : JsError)
| EUncaught (e : JsError).

(** Module state: the [ai] variable, and the client objects built so far. *)
Record State : Type := {
  ai : option GoogleGenAI;
  instances : list GoogleGenAI
}.

Definition initial_state : State := {| ai := None; instances := [] |}.

Record Result (A : Type) : Type := {
  outcome : Outcome A;
  final : State;
  emitted : list Event
}.

Definition M (A : Type) : Type := State -> Result A.

Definition ret {A} (a : A) : M A :=
  fun s => {| outcome := Ok a; final := s; emitted := [] |}.

Definition throw {A} (e : JsError) : M A :=
  fun s => {| outcome := Throw e; final := s; emitted := [] |}.

Definition bind {A B} (m : M A) (k : A -> M B) : M B :=
  fun s =>
    match m s with
    | {| outcome := Ok a; final := s1; emitted := evs1 |} =>
        match k a s1 with
        | {| outcome := o; final := s2; emitted := evs2 |} =>
            {| outcome := o; final := s2; emitted := evs1 ++ evs2 |}
        end
    | {| outcome := Throw e; final := s1; emitted := evs1 |} =>
        {| outcome := Throw e; final := s1; emitted := evs1 |}
    | {| outcome := Pending; final := s1; emitted := evs1 |} =>
        {| outcome := Pending; final := s1; emitted := evs1 |}
    end.

Declare Scope js_scope.
Delimit Scope js_scope with js.
Notation "x <- m ;; k" := (bind m (fun x => k))
  (at level 61, m at next level, right associativity) : js_scope.
Notation "m ;; k" := (bind m (fun _ => k))
  (at level 61, right associativity) : js_scope.
Local Open Scope js_scope.

Definition emit (ev : Event) : M unit :=
  fun s => {| outcome := Ok tt; final := s; emitted := [ev] |}.

Definition settle {A} (o : Outcome A) : M A :=
  fun s => {| outcome := o; final := s; emitted := [] |}.

(** [try { body } catch (e) { handler e }] *)
Definition try_catch {A} (body : M A) (handler : JsError -> M A) : M A :=
  fun s =>
    match body s with
    | {| outcome := Throw e; final := s1; emitted := evs1 |} =>
        match handler e s1 with
        | {| outcome := o; final := s2; emitted := evs2 |} =>
            {| outcome := o; final := s2; emitted := evs1 ++ evs2 |}
        end
    | r => r
    end.

Definition read_ai : M (option GoogleGenAI) :=
  fun s => {| outcome := Ok (ai s); final := s; emitted := [] |}.

Definition write_ai (v : option GoogleGenAI) : M unit :=
  fun s => {| outcome := Ok tt;
              final := {| ai := v; instances := instances s |};
              emitted := [] |}.

(** [new GoogleGenAI({ apiKey })]: the SDK's constructor throws, or yields
    a fresh object bound to the key. *)
Definition new_GoogleGenAI (host : Host) (key : option string) : M GoogleGenAI :=
  fun s =>
    match host_new_GoogleGenAI host key with
    | Some e => {| outcome := Throw e; final := s; emitted := [] |}
    | None =>
        let h := {| client_id := length (instances s); apiKey := key |} in
        {| outcome := Ok h;
           final := {| ai := ai s; instances := instances s ++ [h] |};
           emitted := [EConstruct h] |}
    end.

(** Member access on a value of type [GoogleGenAI | null]. *)
Definition member (v : option GoogleGenAI) : M GoogleGenAI :=
  match v with
  | Some h => ret h
  | None => throw (TypeError "Cannot read properties of null")
  end.

(** A promise cell: pending, or settled once and for all. *)
Definition PromiseState (A : Type) : Type := option (Outcome A).

Definition resolve {A} (v : A) (p : PromiseState A) : PromiseState A :=
  match p with None => Some (Ok v) | Some _ => p end.

Definition reject {A} (e : JsError) (p : PromiseState A) : PromiseState A :=
  match p with None => Some (Throw e) | Some _ => p end.

Definition await {A} (p : PromiseState A) : M A :=
  match p with
  | Some o => settle o
  | None => settle Pending
  end.

(** ** The module *)

Definition dquote : string := String (ascii_of_nat 34) EmptyString.
Definition nl : string := String (ascii_of_nat 10) EmptyString.
Definition stars : string := "**".

(** [imageGenerationTool] *)
Definition imageGenerationTool : FunctionDeclaration := {|
  fd_name := "generate_image";
  fd_description := "Call this function when the user asks to draw, generate, create, or make an image/picture/photo. Do not use for general questions.";
  fd_parameters :=
    mkSchema OBJECT None
      [("prompt",
        mkSchema STRING
          (Some "The detailed description of the image to generate.") [] [])]
      ["prompt"]
|}.

(** The [systemInstruction] literal of [createChatSession]. *)
Definition SYSTEM_INSTRUCTION : string :=
  "You are k-ite, an advanced AI assistant created by the k-ite team. Your primary directive is to identify solely as k-ite. You must NEVER claim to be Gemini, a Google product, or affiliated with Google in any way."
  ++ nl ++ nl ++
  "Key Behaviors:"
  ++ nl ++
  "1. " ++ stars ++ "Format & Layout" ++ stars ++ ": Use Markdown extensively to create clean, readable layouts. Use Headers (#, ##) for sections, Bold (" ++ stars ++ ") for emphasis, and Tables for structured data."
  ++ nl ++
  "2. " ++ stars ++ "Math & Science" ++ stars ++ ": You are an expert in Math. ALWAYS use LaTeX formatting for mathematical equations and symbols. Enclose inline math in single dollar signs ($...$) and block math in double dollar signs ($$...$$)."
  ++ nl ++
  "   - Example: " ++ dquote ++ "The area is $A = \pi r^2$" ++ dquote
  ++ nl ++
  "   - Example: " ++ dquote ++ "$$\int_{0}^{\infty} x^2 dx$$" ++ dquote
  ++ nl ++
  "3. " ++ stars ++ "Tone" ++ stars ++ ": Maintain a helpful, friendly, and concise tone matching your clean and airy interface."
  ++ nl ++
  "4. " ++ stars ++ "Images" ++ stars ++ ": If the user asks to generate an image, use the generate_image tool.".

Definition IMAGE_MODEL : string := "gemini-2.5-flash-image".
Definition TRANSCRIPTION_MODEL : string := "gemini-3-flash-preview".
Definition DEFAULT_AUDIO_TYPE : string := "audio/webm".
Definition NO_SPEECH : string := "[[NO_SPEECH]]".

(** The instruction part of the transcription request. *)
Definition TRANSCRIPTION_PROMPT : string :=
  "Listen carefully to the audio. Transcribe the human speech to text (Vietnamese preferred). "
  ++ nl ++ nl ++
  "CRITICAL RULE: If the audio contains NO human speech (e.g., only silence, background noise, static, typing sounds, breathing, or music without lyrics), output EXACTLY the string: [[NO_SPEECH]]"
  ++ nl ++ nl ++
  "Do not output any other explanation.".

Section Adapter.

Variable host : Host.

(** [getAi]: build the client on first use, then hand back [ai]. *)
Definition getAi : M (option GoogleGenAI) :=
  a <- read_ai ;;
  (match a with
   | None =>
       h <- new_GoogleGenAI host (host_GEMINI_API_KEY host) ;;
       write_ai (Some h)
   | Some _ => ret tt
   end) ;;
  read_ai.

(** [ai.chats.create(params)] and [ai.models.generateContent(params)] *)
Definition chats_create (h : GoogleGenAI) (p : CreateChatParameters) : M Chat :=
  emit (EChatsCreate h p) ;; settle (host_chats_create host h p).

Definition models_generateContent (h : GoogleGenAI)
    (p : GenerateContentParameters) : M GenerateContentResponse :=
  emit (EGenerateContent h p) ;; settle (host_generateContent host h p).

Definition createChatSession (model : string) (history : option (list Content))
  : M Chat :=
  a <- getAi ;;
  h <- member a ;;
  chats_create h
    {| cc_model := model;
       cc_history := history;
       cc_config := Some
         {| systemInstruction := Some SYSTEM_INSTRUCTION;
            tools := Some [ {| functionDeclarations := [imageGenerationTool] |} ];
            responseMimeType := None;
            responseSchema := None |} |}.

Definition generateContent (model : string) (parts : list Part)
  : M GenerateContentResponse :=
  a <- getAi ;;
  h <- member a ;;
  models_generateContent h
    {| gc_model := model; gc_parts := parts; gc_config := None |}.

Definition generateImage (prompt : string) : M GenerateContentResponse :=
  a <- getAi ;;
  h <- member a ;;
  models_generateContent h
    {| gc_model := IMAGE_MODEL;
       gc_parts := [PartText prompt];
       gc_config := None |}.

(** The [onloadend] handler of [blobToBase64].  [result] is [null] after
    a failed read; the handler then throws inside the event dispatch,
    which the host reports and which leaves the promise as it was. *)
Definition onloadend (result : option string)
    (p : PromiseState (option string)) : M (PromiseState (option string)) :=
  match result with
  | Some dataUrl =>
      let base64 := index (split comma dataUrl) 1 in
      ret (resolve base64 p)
  | None =>
      emit (EUncaught (TypeError "Cannot read properties of null")) ;;
      ret p
  end.

(** [reader.onerror = reject] *)
Definition onerror (ev : JsError)
    (p : PromiseState (option string)) : PromiseState (option string) :=
  reject ev p.

(** [blobToBase64]: the reader fires [load] (no handler) or [error], and
    then [loadend] in both cases.  The trace lists the effects of a read
    with the read; it does not say whether the host runs the [loadend]
    handler before or after the reactions to the promise. *)
Definition blobToBase64 (blob : Blob) : M (option string) :=
  emit (EReadAsDataURL blob) ;;
  p <- (match host_readAsDataURL host blob with
        | ReadOk dataUrl => onloadend (Some dataUrl) None
        | ReadError ev => onloadend None (onerror ev None)
        end) ;;
  await p.

Definition transcribeAudio (audioBlob : Blob) : M Transcription :=
  try_catch
    (base64Data <- blobToBase64 audioBlob ;;
     a <- getAi ;;
     h <- member a ;;
     response <- models_generateContent h
       {| gc_model := TRANSCRIPTION_MODEL;
          gc_parts :=
            [ PartInlineData
                (js_or (Some (blob_type audioBlob)) DEFAULT_AUDIO_TYPE)
                base64Data;
              PartText TRANSCRIPTION_PROMPT ];
          gc_config := None |} ;;
     ret {| text := js_or (resp_text response) "" |})
    (fun e =>
       emit (EConsoleError "Gemini Transcription error" e) ;;
       ret {| text := "" |}).

End Adapter.

(** ** Observing a run *)

(** The payload of a provider call, without the handle it went through. *)
Inductive Request : Type :=
| ReqChat (p : CreateChatParameters)
| ReqGenerate (p : GenerateContentParameters).

Fixpoint sent (evs : list Event) : list Request :=
  match evs with
  | [] => []
  | EChatsCreate _ p :: rest => ReqChat p :: sent rest
  | EGenerateContent _ p :: rest => ReqGenerate p :: sent rest
  | _ :: rest => sent rest
  end.

(** The handles provider calls went through. *)
Fixpoint handles_used (evs : list Event) : list GoogleGenAI :=
  match evs with
  | [] => []
  | EChatsCreate h _ :: rest => h :: handles_used rest
  | EGenerateContent h _ :: rest => h :: handles_used rest
  | _ :: rest => handles_used rest
  end.

(** How many client objects a run built. *)
Fixpoint constructions (evs : list Event) : nat :=
  match evs with
  | [] => 0
  | EConstruct _ :: rest => S (constructions rest)
  | _ :: rest => constructions rest
  end.

Definition request_responseMimeType (p : GenerateContentParameters) : option string :=
  match gc_config p with
  | Some c => responseMimeType c
  | None => None
  end.

Definition request_responseSchema (p : GenerateContentParameters) : option Schema :=
  match gc_config p with
  | Some c => responseSchema c
  | None => None
  end.

Definition has_comma (s : string) : Prop := In comma (list_ascii_of_string s).

(** The exported operations as one type, for statements about call
    sequences. *)
Inductive Operation : Type :=
| OpCreateChatSession (model : string) (history : option (list Content))
| OpGenerateContent (model : string) (parts : list Part)
| OpGenerateImage (prompt : string)
| OpTranscribeAudio (audioBlob : Blob).

Inductive Value : Type :=
| VChat (c : Chat)
| VResponse (r : GenerateContentResponse)
| VTranscription (t : Transcription).

Definition fmap {A B} (f : A -> B) (m : M A) : M B :=
  x <- m ;; ret (f x).

Definition run_op (host : Host) (op : Operation) : M Value :=
  match op with
  | OpCreateChatSession model history => fmap VChat (createChatSession host model history)
  | OpGenerateContent model parts => fmap VResponse (generateContent host model parts)
  | OpGenerateImage prompt => fmap VResponse (generateImage host prompt)
  | OpTranscribeAudio b => fmap VTranscription (transcribeAudio host b)
  end.

(** Sequential execution: each call runs to completion, in a host that may
    behave differently from call to call. *)
Fixpoint run_ops (calls : list (Host * Operation)) (s : State) : State * list Event :=
  match calls with
  | [] => (s, [])
  | (host, op) :: rest =>
      let r := run_op host op s in
      let tail := run_ops rest (final r) in
      (fst tail, emitted r ++ snd tail)
  end.

(** Whether a call gets as far as [getAi]: all do, except a transcription
    whose encoding step fails. *)
Definition reaches_getAi (call : Host * Operation) : bool :=
  match snd call with
  | OpTranscribeAudio b =>
      match host_readAsDataURL (fst call) b with
      | ReadOk _ => true
      | ReadError _ => false
      end
  | _ => true
  end.

(** Whether [getAi], called in state [s], comes back with a client: [ai]
    is already set, or the constructor accepts the key. *)
Definition obtains_client (host : Host) (s : State) : bool :=
  match ai s with
  | Some _ => true
  | None =>
      match host_new_GoogleGenAI host (host_GEMINI_API_KEY host) with
      | None => true
      | Some _ => false
      end
  end.

(** Whether a call made while [ai] is null builds the client: it gets as
    far as [getAi] and the constructor accepts the key. *)
Definition builds_client (call : Host * Operation) : bool :=
  reaches_getAi call
  && match host_new_GoogleGenAI (fst call) (host_GEMINI_API_KEY (fst call)) with
     | None => true
     | Some _ => false
     end.

(** For which blob two hosts must read alike for a call to be comparable. *)
Definition reads_agree (host1 host2 : Host) (op : Operation) : Prop :=
  match op with
  | OpTranscribeAudio b => host_readAsDataURL host1 b = host_readAsDataURL host2 b
  | _ => True
  end.

(** ** Sample hosts and inputs *)

Definition sample_response (t : option string) : GenerateContentResponse :=
  {| resp_text := t; resp_parts := [] |}.

(** The constructor of the SDK's browser build: it refuses a missing key. *)
Definition browser_constructor (key : option string) : option JsError :=
  match key with
  | Some _ => None
  | None => Some (OtherError "An API Key must be set when running in a browser")
  end.

(** A provider that answers every request with the text [t]. *)
Definition answering_host (dataUrl : string) (t : option string) : Host :=
  {| host_GEMINI_API_KEY := Some "key";
     host_new_GoogleGenAI := browser_constructor;
     host_readAsDataURL := fun _ => ReadOk dataUrl;
     host_chats_create := fun _ _ => Ok {| chat_session := 7 |};
     host_generateContent := fun _ _ => Ok (sample_response t) |}.

(** A provider that rejects every request, e.g. for a revoked credential. *)
Definition rejecting_host : Host :=
  {| host_GEMINI_API_KEY := Some "revoked key";
     host_new_GoogleGenAI := browser_constructor;
     host_readAsDataURL := fun _ => ReadOk "data:audio/webm;base64,AAAA";
     host_chats_create := fun _ _ => Throw (ApiError 403 "forbidden");
     host_generateContent := fun _ _ => Throw (ApiError 403 "forbidden") |}.

(** A host whose reader fails. *)
Definition unreadable_host : Host :=
  {| host_GEMINI_API_KEY := Some "key";
     host_new_GoogleGenAI := browser_constructor;
     host_readAsDataURL := fun _ => ReadError (ProgressEvent "error" "NotReadableError");
     host_chats_create := fun _ _ => Ok {| chat_session := 7 |};
     host_generateContent := fun _ _ => Ok (sample_response (Some "hello")) |}.

(** A browser in which the key is not set: the constructor throws. *)
Definition keyless_host : Host :=
  {| host_GEMINI_API_KEY := None;
     host_new_GoogleGenAI := browser_constructor;
     host_readAsDataURL := fun _ => ReadOk "data:audio/ogg;base64,AAEC";
     host_chats_create := fun _ _ => Ok {| chat_session := 7 |};
     host_generateContent := fun _ _ => Ok (sample_response (Some "hello")) |}.

(** A server process in which the key is not set: the constructor builds
    the client all the same and the provider refuses the calls. *)
Definition keyless_server_host : Host :=
  {| host_GEMINI_API_KEY := None;
     host_new_GoogleGenAI := fun _ => None;
     host_readAsDataURL := fun _ => ReadOk "data:audio/ogg;base64,AAEC";
     host_chats_create := fun _ _ => Throw (ApiError 403 "forbidden");
     host_generateContent := fun _ _ => Throw (ApiError 403 "forbidden") |}.

Definition sample_blob : Blob := {| blob_type := "audio/ogg"; blob_bytes := [x00; x01; x02] |}.
Definition untyped_blob : Blob := {| blob_type := ""; blob_bytes := [x00; x01; x02] |}.

Definition warm_state : State :=
  let h := {| client_id := 0; apiKey := Some "key" |} in
  {| ai := Some h; instances := [h] |}.

Definition sample_handle : GoogleGenAI := {| client_id := 0; apiKey := Some "key" |}.
Definition sample_url : string := "data:audio/ogg;base64,AAEC".

Definition sample_transcription_request (mime : string) : GenerateContentParameters :=
  {| gc_model := "gemini-3-flash-preview";
     gc_parts := [PartInlineData mime (Some "AAEC"); PartText TRANSCRIPTION_PROMPT];
     gc_config := None |}.

Definition sample_calls : list (Host * Operation) :=
  [ (unreadable_host, OpTranscribeAudio sample_blob);
    (keyless_host, OpGenerateImage "a red bicycle");
    (answering_host sample_url (Some "hello"), OpTranscribeAudio untyped_blob);
    (rejecting_host, OpCreateChatSession "gemini-2.5-flash" None) ].

(** A provider whose calls never settle. *)
Definition pending_host : Host :=
  {| host_GEMINI_API_KEY := Some "other key";
     host_new_GoogleGenAI := browser_constructor;
     host_readAsDataURL := fun _ => ReadOk "data:audio/ogg;base64,AAEC";
     host_chats_create := fun _ _ => Pending;
     host_generateContent := fun _ _ => Pending |}.

(** A data URL whose media type carries a comma of its own. *)
Definition codecs_url : string := "data:audio/ogg;codecs=opus,vorbis;base64,AAEC".

(** ** Basic facts *)

Unset Implicit Arguments.

Example lit_lengths :
  (String.length SYSTEM_INSTRUCTION, String.length TRANSCRIPTION_PROMPT,
   String.length (fd_description imageGenerationTool)) = (890, 323, 130)%nat.
Proof. vm_compute. reflexivity. Qed.

Example split_data_url :
  split comma "data:audio/webm;base64,AAAA" = ["data:audio/webm;base64"; "AAAA"].
Proof. reflexivity. Qed.

Example split_empty : split comma "" = [""].
Proof. reflexivity. Qed.

Example split_trailing : split comma "a,,b," = ["a"; ""; "b"; ""].
Proof. reflexivity. Qed.

Example generateImage_red_bicycle :
  sent (emitted (generateImage rejecting_host "a red bicycle" initial_state))
  = [ReqGenerate {| gc_model := "gemini-2.5-flash-image";
                    gc_parts := [PartText "a red bicycle"];
                    gc_config := None |}].
Proof. reflexivity. Qed.

Example transcribeAudio_silence :
  outcome (transcribeAudio (answering_host sample_url (Some "[[NO_SPEECH]]"))
             sample_blob initial_state)
  = Ok {| text := "[[NO_SPEECH]]" |}.
Proof. reflexivity. Qed.

Example transcribeAudio_request :
  sent (emitted (transcribeAudio (answering_host sample_url None)
                   untyped_blob warm_state))
  = [ReqGenerate (sample_transcription_request "audio/webm")].
Proof. reflexivity. Qed.

Example transcribeAudio_unreadable :
  transcribeAudio unreadable_host sample_blob initial_state
  = {| outcome := Ok {| text := "" |};
       final := initial_state;
       emitted :=
         [ EReadAsDataURL sample_blob;
           EUncaught (TypeError "Cannot read properties of null");
           EConsoleError "Gemini Transcription error"
             (ProgressEvent "error" "NotReadableError") ] |}.
Proof. reflexivity. Qed.

Example createChatSession_twice :
  snd (run_ops [ (rejecting_host, OpCreateChatSession "gemini-2.5-flash" None);
                 (rejecting_host, OpGenerateImage "a red bicycle") ]
         initial_state)
  = [ EConstruct {| client_id := 0; apiKey := Some "revoked key" |};
      EChatsCreate {| client_id := 0; apiKey := Some "revoked key" |}
        {| cc_model := "gemini-2.5-flash";
           cc_history := None;
           cc_config := Some
             {| systemInstruction := Some SYSTEM_INSTRUCTION;
                tools := Some [ {| functionDeclarations := [imageGenerationTool] |} ];
                responseMimeType := None;
                responseSchema := None |} |};
      EGenerateContent {| client_id := 0; apiKey := Some "revoked key" |}
        {| gc_model := "gemini-2.5-flash-image";
           gc_parts := [PartText "a red bicycle"];
           gc_config := None |} ].
Proof. reflexivity. Qed.

Example generateImage_keyless_browser :
  generateImage keyless_host "a red bicycle" initial_state
  = {| outcome := Throw (OtherError "An API Key must be set when running in a browser");
       final := initial_state;
       emitted := [] |}.
Proof. reflexivity. Qed.

Example transcribeAudio_keyless_browser :
  transcribeAudio keyless_host sample_blob initial_state
  = {| outcome := Ok {| text := "" |};
       final := initial_state;
       emitted :=
         [ EReadAsDataURL sample_blob;
           EConsoleError "Gemini Transcription error"
             (OtherError "An API Key must be set when running in a browser") ] |}.
Proof. reflexivity. Qed.

Ltac unfold_js :=
  unfold run_op, fmap, transcribeAudio, createChatSession, generateContent,
    generateImage, blobToBase64, onloadend, onerror, models_generateContent,
    chats_create, getAi, member, await, resolve, reject, try_catch, bind,
    read_ai, write_ai, new_GoogleGenAI, emit, settle, ret, throw.

(** Case analysis on which emitted event a given provider call is. *)
Ltac which_event :=
  repeat match goal with
    | H : _ \/ _ |- _ => destruct H
    | H : False |- _ => destruct H
    | H : EChatsCreate _ _ = EChatsCreate _ _ |- _ => inversion H; subst; clear H
    | H : EGenerateContent _ _ = EGenerateContent _ _ |- _ => inversion H; subst; clear H
    | H : @eq Event _ _ |- _ => discriminate H
    end.

(** Case analysis on the provider's reply to the request in the goal. *)
Ltac provider_reply R :=
  match goal with
  | |- context [host_generateContent ?host ?h ?p] =>
      destruct (host_generateContent host h p) eqn:R; cbn
  end.

(** Case analysis on how [getAi] fares in state [s]: [ai] set, client
    built, or constructor throwing. *)
Ltac client_cases host s h0 E ce C :=
  destruct (ai s) as [h0|] eqn:E; cbn; rewrite ?E; cbn;
  [ | destruct (host_new_GoogleGenAI host (host_GEMINI_API_KEY host)) as [ce|] eqn:C;
      cbn; rewrite ?E, ?C; cbn ].

(** Case analysis on every provider reply in the goal. *)
Ltac any_reply :=
  repeat match goal with
    | |- context [host_chats_create ?host ?h ?p] =>
        destruct (host_chats_create host h p); cbn
    | |- context [host_generateContent ?host ?h ?p] =>
        destruct (host_generateContent host h p); cbn
    end.

(** Two concrete lists of requests hold the same payloads. *)
Ltac same_payloads :=
  split;
  [ intros r1 r2 H1 H2; cbn in H1, H2;
    repeat match goal with
      | H : _ \/ _ |- _ => destruct H
      | H : False |- _ => destruct H
      end;
    subst; reflexivity
  | first [ intros _; reflexivity | intros Hd; discriminate Hd ] ].

(** A string literal has no comma. *)
Ltac no_comma :=
  unfold has_comma; cbn; intros H;
  repeat (destruct H as [H|H]; [discriminate H|]); exact H.

Section Facts.

Variable host : Host.

Lemma getAi_first (s : State) :
  ai s = None ->
  host_new_GoogleGenAI host (host_GEMINI_API_KEY host) = None ->
  let h := {| client_id := length (instances s);
              apiKey := host_GEMINI_API_KEY host |} in
  getAi host s =
    {| outcome := Ok (Some h);
       final := {| ai := Some h; instances := instances s ++ [h] |};
       emitted := [EConstruct h] |}.
Proof. intros E C. unfold_js. cbn. rewrite E. cbn. rewrite C. reflexivity. Qed.

Lemma getAi_refused (s : State) (e : JsError) :
  ai s = None ->
  host_new_GoogleGenAI host (host_GEMINI_API_KEY host) = Some e ->
  getAi host s = {| outcome := Throw e; final := s; emitted := [] |}.
Proof. intros E C. unfold_js. cbn. rewrite E. cbn. rewrite C. reflexivity. Qed.

Lemma getAi_again (s : State) (h : GoogleGenAI) :
  ai s = Some h ->
  getAi host s = {| outcome := Ok (Some h); final := s; emitted := [] |}.
Proof. intros E. unfold_js. cbn. rewrite E. cbn. rewrite E. reflexivity. Qed.

Lemma split_no_comma (s : string) :
  ~ has_comma s -> split comma s = [s].
Proof.
  unfold has_comma. induction s as [|c s IH]; cbn; intros H.
  - reflexivity.
  - destruct (Ascii.eqb_spec c comma) as [->|Hc].
    + exfalso. apply H. now left.
    + rewrite IH; [reflexivity|]. intros Hin. apply H. now right.
Qed.

End Facts.

(** ** The image and content operations *)

(** C1. For every prompt, whatever the module state and the host, every
    request [generateImage] hands the provider has the literal model
    [gemini-2.5-flash-image], the single text part holding the prompt, and
    neither a response MIME type nor a response schema; and whenever
    [getAi] comes back with a client it hands the provider exactly one such
    request.  The operation has no model parameter at all. *)
Theorem generateImage_request (host : Host) (prompt : string) (s : State) :
  (forall r,
      In r (sent (emitted (generateImage host prompt s))) ->
      exists p,
        r = ReqGenerate p
        /\ gc_model p = "gemini-2.5-flash-image"
        /\ gc_parts p = [PartText prompt]
        /\ request_responseMimeType p = None
        /\ request_responseSchema p = None)
  /\ (obtains_client host s = true ->
      exists p, sent (emitted (generateImage host prompt s)) = [ReqGenerate p]).
Proof.
  split.
  - unfold_js. cbn. client_cases host s h0 E ce C;
      intros r Hin; cbn in Hin;
      first [contradiction | destruct Hin as [<-|[]]; eexists; repeat split].
  - unfold obtains_client. unfold_js. cbn. client_cases host s h0 E ce C;
      try discriminate; intros _; eexists; reflexivity.
Qed.

(** C5. For every model and every sequence of parts, every request
    [generateContent] sends has the given model and the given parts,
    unchanged and in order; whenever [getAi] comes back with a client it
    makes a single provider call with that request and its own outcome is
    the provider's outcome for it: the response is handed back as it is.
    When the constructor throws instead, nothing is sent and the
    constructor's error reaches the caller. *)
Theorem generateContent_forwards (host : Host) (model : string)
    (parts : list Part) (s : State) :
  (forall r,
      In r (sent (emitted (generateContent host model parts s))) ->
      exists p, r = ReqGenerate p /\ gc_model p = model /\ gc_parts p = parts)
  /\ (obtains_client host s = true ->
      exists h p,
        handles_used (emitted (generateContent host model parts s)) = [h]
        /\ sent (emitted (generateContent host model parts s)) = [ReqGenerate p]
        /\ gc_model p = model
        /\ gc_parts p = parts
        /\ outcome (generateContent host model parts s) = host_generateContent host h p)
  /\ (forall e,
        ai s = None ->
        host_new_GoogleGenAI host (host_GEMINI_API_KEY host) = Some e ->
        sent (emitted (generateContent host model parts s)) = []
        /\ outcome (generateContent host model parts s) = Throw e).
Proof.
  split; [|split].
  - unfold_js. cbn. client_cases host s h0 E ce C;
      intros r Hin; cbn in Hin;
      first [contradiction | destruct Hin as [<-|[]]; eexists; repeat split].
  - unfold obtains_client. unfold_js. cbn. client_cases host s h0 E ce C;
      try discriminate; intros _; do 2 eexists; repeat split.
  - intros e E C. unfold_js. cbn. rewrite E. cbn. rewrite C. cbn.
    split; reflexivity.
Qed.

(** C4. For every model and every history, every request
    [createChatSession] hands the provider carries the given model and
    history, the fixed system instruction and a tool list of exactly one
    tool with exactly one function declaration, [generate_image], whose
    parameter schema is an object with the single property [prompt], of
    type string, listed as required; whenever [getAi] comes back with a
    client there is exactly one such request.  The configuration is the same
    for any other model, history, state or host. *)
Theorem createChatSession_config (host : Host) (model : string)
    (history : option (list Content)) (s : State) :
  exists cfg fd prop,
    systemInstruction cfg = Some SYSTEM_INSTRUCTION
    /\ tools cfg = Some [ {| functionDeclarations := [fd] |} ]
    /\ fd = imageGenerationTool
    /\ fd_name fd = "generate_image"
    /\ schema_type (fd_parameters fd) = OBJECT
    /\ schema_properties (fd_parameters fd) = [("prompt", prop)]
    /\ schema_type prop = STRING
    /\ schema_required (fd_parameters fd) = ["prompt"]
    /\ (forall r,
          In r (sent (emitted (createChatSession host model history s))) ->
          exists p,
            r = ReqChat p
            /\ cc_model p = model
            /\ cc_history p = history
            /\ cc_config p = Some cfg)
    /\ (obtains_client host s = true ->
        exists p, sent (emitted (createChatSession host model history s)) = [ReqChat p])
    /\ (forall host' model' history' s' p',
          In (ReqChat p') (sent (emitted (createChatSession host' model' history' s'))) ->
          cc_config p' = Some cfg).
Proof.
  exists {| systemInstruction := Some SYSTEM_INSTRUCTION;
            tools := Some [ {| functionDeclarations := [imageGenerationTool] |} ];
            responseMimeType := None;
            responseSchema := None |},
         imageGenerationTool,
         (mkSchema STRING
            (Some "The detailed description of the image to generate.") [] []).
  do 8 (split; [reflexivity|]).
  split; [|split].
  - unfold_js. cbn. client_cases host s h0 E ce C;
      intros r Hin; cbn in Hin;
      first [contradiction | destruct Hin as [<-|[]]; eexists; repeat split].
  - unfold obtains_client. unfold_js. cbn. client_cases host s h0 E ce C;
      try discriminate; intros _; eexists; reflexivity.
  - intros host' model' history' s' p'. unfold_js. cbn.
    client_cases host' s' h0 E ce C;
      intros Hin; cbn in Hin;
      first [contradiction | destruct Hin as [H|[]]; inversion H; reflexivity].
Qed.

(** C6. [createChatSession], [generateContent] and [generateImage] catch
    nothing: whenever the provider call such an operation made threw [e],
    the operation itself ends by throwing that same [e], having made that
    one provider call and nothing after it (no retry, no logging). *)
Theorem provider_errors_propagate (host : Host) (s : State) (e : JsError) :
  (forall model history h p,
      In (EChatsCreate h p) (emitted (createChatSession host model history s)) ->
      host_chats_create host h p = Throw e ->
      outcome (createChatSession host model history s) = Throw e
      /\ exists pre, emitted (createChatSession host model history s)
                     = pre ++ [EChatsCreate h p] /\ sent pre = [])
  /\ (forall model parts h p,
      In (EGenerateContent h p) (emitted (generateContent host model parts s)) ->
      host_generateContent host h p = Throw e ->
      outcome (generateContent host model parts s) = Throw e
      /\ exists pre, emitted (generateContent host model parts s)
                     = pre ++ [EGenerateContent h p] /\ sent pre = [])
  /\ (forall prompt h p,
      In (EGenerateContent h p) (emitted (generateImage host prompt s)) ->
      host_generateContent host h p = Throw e ->
      outcome (generateImage host prompt s) = Throw e
      /\ exists pre, emitted (generateImage host prompt s)
                     = pre ++ [EGenerateContent h p] /\ sent pre = []).
Proof.
  split; [|split]; intros; revert H; unfold_js; cbn;
    client_cases host s h0 E ce C; intros Hin; cbn in Hin;
    which_event;
    (split; [rewrite H0; reflexivity|]);
    first [ exists []; split; reflexivity | eexists [_]; split; reflexivity ].
Qed.

(** ** Encoding and transcription *)

(** C9. [blobToBase64] rejects exactly when the read fails, and then with
    the reader's error event; when the read succeeds with a data URL that
    has no comma, it resolves with [undefined]: piece 1 of the split does
    not exist and nothing checks for it. *)
Theorem blobToBase64_settles (host : Host) (blob : Blob) (s : State) :
  (forall e, outcome (blobToBase64 host blob s) = Throw e <->
             host_readAsDataURL host blob = ReadError e)
  /\ (forall dataUrl,
        host_readAsDataURL host blob = ReadOk dataUrl ->
        ~ has_comma dataUrl ->
        outcome (blobToBase64 host blob s) = Ok None).
Proof.
  split.
  - intros e. unfold_js. cbn.
    destruct (host_readAsDataURL host blob) as [u|ev]; cbn; split; intros H;
      try discriminate H; inversion H; reflexivity.
  - intros dataUrl Hr Hc. unfold_js. cbn. rewrite Hr. cbn.
    rewrite (split_no_comma _ Hc). reflexivity.
Qed.

(** C2. [transcribeAudio] never throws.  If the read of the blob fails, or
    if the provider call it made throws, it returns [{ text: "" }], having
    logged that very error under the message [Gemini Transcription error];
    after a provider failure the log entry is the last thing it did. *)
Theorem transcribeAudio_never_throws (host : Host) (blob : Blob) (s : State) :
  (forall e, outcome (transcribeAudio host blob s) <> Throw e)
  /\ (forall ev,
        host_readAsDataURL host blob = ReadError ev ->
        outcome (transcribeAudio host blob s) = Ok {| text := "" |}
        /\ In (EConsoleError "Gemini Transcription error" ev)
              (emitted (transcribeAudio host blob s)))
  /\ (forall h p e,
        In (EGenerateContent h p) (emitted (transcribeAudio host blob s)) ->
        host_generateContent host h p = Throw e ->
        outcome (transcribeAudio host blob s) = Ok {| text := "" |}
        /\ exists pre, emitted (transcribeAudio host blob s)
                       = pre ++ [EConsoleError "Gemini Transcription error" e]).
Proof.
  split; [|split].
  - intros e. unfold_js. cbn.
    destruct (host_readAsDataURL host blob) as [u|ev]; cbn; [|discriminate].
    client_cases host s h0 E ce C; try provider_reply R; discriminate.
  - intros ev Hr. unfold_js. cbn. rewrite Hr. cbn.
    split; [reflexivity|]. right. right. left. reflexivity.
  - intros h p e. unfold_js. cbn.
    destruct (host_readAsDataURL host blob) as [u|ev]; cbn.
    + client_cases host s h0 E ce C; try provider_reply R;
        intros Hin Hrep; cbn in Hin; which_event;
        try congruence;
        assert (e0 = e) by congruence; subst;
        (split; [reflexivity|]);
        first [ eexists [_; _]; reflexivity | eexists [_; _; _]; reflexivity ].
    + intros Hin; cbn in Hin; which_event.
Qed.

Lemma transcribeAudio_success (host : Host) (blob : Blob) (s : State)
    (h : GoogleGenAI) (p : GenerateContentParameters)
    (resp : GenerateContentResponse) :
  In (EGenerateContent h p) (emitted (transcribeAudio host blob s)) ->
  host_generateContent host h p = Ok resp ->
  outcome (transcribeAudio host blob s) = Ok {| text := js_or (resp_text resp) "" |}.
Proof.
  unfold_js. cbn.
  destruct (host_readAsDataURL host blob) as [u|ev]; cbn.
  - client_cases host s h0 E ce C; try provider_reply R;
      intros Hin Hok; cbn in Hin; which_event; congruence.
  - intros Hin; cbn in Hin; which_event.
Qed.

(** C3. When the provider call made by [transcribeAudio] succeeds, the
    result is [{ text: t }] with [t] the response's text if it is present
    and not empty, and the empty string if the response has no text; the
    sentinel [[[NO_SPEECH]]] comes back as it is. *)
Theorem transcribeAudio_text (host : Host) (blob : Blob) (s : State)
    (h : GoogleGenAI) (p : GenerateContentParameters)
    (resp : GenerateContentResponse) :
  In (EGenerateContent h p) (emitted (transcribeAudio host blob s)) ->
  host_generateContent host h p = Ok resp ->
  (forall t, resp_text resp = Some t -> t <> "" ->
             outcome (transcribeAudio host blob s) = Ok {| text := t |})
  /\ (resp_text resp = None ->
      outcome (transcribeAudio host blob s) = Ok {| text := "" |})
  /\ (resp_text resp = Some "[[NO_SPEECH]]" ->
      outcome (transcribeAudio host blob s) = Ok {| text := "[[NO_SPEECH]]" |}).
Proof.
  intros Hin Hok.
  rewrite (transcribeAudio_success host blob s h p resp Hin Hok).
  repeat split.
  - intros t Ht Hne. rewrite Ht. destruct t; [contradiction|reflexivity].
  - intros Ht. rewrite Ht. reflexivity.
  - intros Ht. rewrite Ht. reflexivity.
Qed.

(** C8. In the request [transcribeAudio] builds, the first part is the
    inline audio data and it is the only inline part; its MIME type is the
    blob's own type when that is not empty, and [audio/webm] when it is. *)
Theorem transcribeAudio_mime (host : Host) (blob : Blob) (s : State)
    (h : GoogleGenAI) (p : GenerateContentParameters) :
  In (EGenerateContent h p) (emitted (transcribeAudio host blob s)) ->
  exists mime data rest,
    gc_parts p = PartInlineData mime data :: rest
    /\ (forall m d, ~ In (PartInlineData m d) rest)
    /\ (blob_type blob <> "" -> mime = blob_type blob)
    /\ (blob_type blob = "" -> mime = "audio/webm").
Proof.
  unfold_js. cbn.
  destruct (host_readAsDataURL host blob) as [u|ev]; cbn.
  - client_cases host s h0 E ce C; try provider_reply R;
      intros Hin; cbn in Hin; which_event; cbn;
      do 3 eexists; (split; [reflexivity|]); (split; [|split]);
      try (intros m d [Hd|[]]; discriminate Hd);
      try (intros Hty; destruct (blob_type blob); [contradiction|reflexivity]);
      try (intros Hty; rewrite Hty; reflexivity).
  - intros Hin; cbn in Hin; which_event.
Qed.

(** ** The request as a function of the arguments *)

(** C10. The requests an operation hands the provider depend on its
    arguments only: run twice on equal arguments, in any two module states
    and against any two hosts (credentials, constructor and provider
    replies may differ), any payload the one run sends equals any payload
    the other sends, and the two runs send the same payloads whenever
    [getAi] fares alike in both.  For [transcribeAudio] the blob's encoding
    is obtained from the host's reader, so the two hosts are taken to read
    that blob alike. *)
Theorem request_payload_deterministic (op : Operation) (host1 host2 : Host)
    (s1 s2 : State) :
  reads_agree host1 host2 op ->
  (forall r1 r2,
      In r1 (sent (emitted (run_op host1 op s1))) ->
      In r2 (sent (emitted (run_op host2 op s2))) ->
      r1 = r2)
  /\ (obtains_client host1 s1 = obtains_client host2 s2 ->
      sent (emitted (run_op host1 op s1)) = sent (emitted (run_op host2 op s2))).
Proof.
  destruct op as [model history|model parts|prompt|blob]; cbn [reads_agree]; intros Hr;
    unfold obtains_client; unfold_js; cbn.
  - client_cases host1 s1 h1 E1 ce1 C1; client_cases host2 s2 h2 E2 ce2 C2;
      any_reply; same_payloads.
  - client_cases host1 s1 h1 E1 ce1 C1; client_cases host2 s2 h2 E2 ce2 C2;
      any_reply; same_payloads.
  - client_cases host1 s1 h1 E1 ce1 C1; client_cases host2 s2 h2 E2 ce2 C2;
      any_reply; same_payloads.
  - rewrite Hr. destruct (host_readAsDataURL host2 blob) as [u|ev]; cbn.
    + client_cases host1 s1 h1 E1 ce1 C1; client_cases host2 s2 h2 E2 ce2 C2;
        any_reply; same_payloads.
    + same_payloads.
Qed.

(** ** The client handle *)

Lemma constructions_app (xs ys : list Event) :
  constructions (xs ++ ys) = constructions xs + constructions ys.
Proof.
  induction xs as [|[] xs IH]; cbn; rewrite ?IH; reflexivity.
Qed.

Lemma handles_used_app (xs ys : list Event) :
  handles_used (xs ++ ys) = handles_used xs ++ handles_used ys.
Proof.
  induction xs as [|[] xs IH]; cbn; rewrite ?IH; reflexivity.
Qed.

Section OneCall.

Variables (host : Host) (op : Operation) (s : State).

(** Once [ai] is set, a call leaves the module state alone, builds no
    client and talks to the provider through [ai] only. *)
Lemma run_op_warm (h : GoogleGenAI) :
  ai s = Some h ->
  final (run_op host op s) = s
  /\ constructions (emitted (run_op host op s)) = 0
  /\ (forall h', In h' (handles_used (emitted (run_op host op s))) -> h' = h).
Proof.
  intros E. destruct op as [model history|model parts|prompt|blob];
    unfold_js; cbn; rewrite ?E; cbn; rewrite ?E; cbn.
  - destruct (host_chats_create host h _); cbn; repeat split;
      intros h' [<-|[]]; reflexivity.
  - provider_reply R; repeat split; intros h' [<-|[]]; reflexivity.
  - provider_reply R; repeat split; intros h' [<-|[]]; reflexivity.
  - destruct (host_readAsDataURL host blob) as [u|ev]; cbn; rewrite ?E; cbn;
      rewrite ?E; cbn.
    + provider_reply R; repeat split; intros h' [<-|[]]; reflexivity.
    + repeat split. intros h' [].
Qed.

(** With [ai] still null, a call that gets to [getAi] and whose constructor
    call succeeds builds the client, stores it and uses it. *)
Lemma run_op_cold :
  ai s = None ->
  builds_client (host, op) = true ->
  let h := {| client_id := length (instances s);
              apiKey := host_GEMINI_API_KEY host |} in
  final (run_op host op s) = {| ai := Some h; instances := instances s ++ [h] |}
  /\ constructions (emitted (run_op host op s)) = 1
  /\ (forall h', In h' (handles_used (emitted (run_op host op s))) -> h' = h).
Proof.
  intros E. unfold builds_client, reaches_getAi. cbn [fst snd].
  destruct (host_new_GoogleGenAI host (host_GEMINI_API_KEY host)) as [ce|] eqn:C;
    [rewrite andb_false_r; discriminate|].
  destruct op as [model history|model parts|prompt|blob]; intros Hr;
    unfold_js; cbn; rewrite ?E; cbn; rewrite ?C; cbn.
  - match goal with
    | |- context [host_chats_create host ?h ?p] =>
        destruct (host_chats_create host h p); cbn
    end; repeat split; intros h' [<-|[]]; reflexivity.
  - provider_reply R; repeat split; intros h' [<-|[]]; reflexivity.
  - provider_reply R; repeat split; intros h' [<-|[]]; reflexivity.
  - destruct (host_readAsDataURL host blob) as [u|ev]; [|discriminate Hr].
    cbn. rewrite ?E. cbn. rewrite ?C. cbn.
    provider_reply R; repeat split; intros h' [<-|[]]; reflexivity.
Qed.

(** With [ai] still null, a call that does not get to [getAi], or whose
    constructor call throws, touches neither the state nor the provider. *)
Lemma run_op_skip :
  ai s = None ->
  builds_client (host, op) = false ->
  final (run_op host op s) = s
  /\ constructions (emitted (run_op host op s)) = 0
  /\ handles_used (emitted (run_op host op s)) = [].
Proof.
  intros E. unfold builds_client, reaches_getAi. cbn [fst snd].
  destruct op as [model history|model parts|prompt|blob]; intros Hr;
    unfold_js; cbn; rewrite ?E; cbn.
  1-3: destruct (host_new_GoogleGenAI host (host_GEMINI_API_KEY host)) as [ce|] eqn:C;
    [cbn; repeat split | discriminate Hr].
  destruct (host_readAsDataURL host blob) as [u|ev]; cbn.
  - rewrite ?E. cbn.
    destruct (host_new_GoogleGenAI host (host_GEMINI_API_KEY host)) as [ce|] eqn:C;
      [cbn; repeat split | discriminate Hr].
  - repeat split.
Qed.

End OneCall.

Lemma run_ops_warm (calls : list (Host * Operation)) (s : State) (h : GoogleGenAI) :
  ai s = Some h ->
  fst (run_ops calls s) = s
  /\ constructions (snd (run_ops calls s)) = 0
  /\ (forall h', In h' (handles_used (snd (run_ops calls s))) -> h' = h).
Proof.
  intros E. induction calls as [|[host op] calls IH]; cbn [run_ops fst snd].
  - repeat split. intros h' [].
  - destruct (run_op_warm host op s h E) as (Hf & Hc & Hh).
    rewrite Hf. destruct IH as (IHf & IHc & IHh).
    rewrite constructions_app, handles_used_app, Hc, IHc.
    repeat split; [assumption|].
    intros h' Hin. apply in_app_or in Hin. destruct Hin; auto.
Qed.

Lemma run_ops_skip (calls : list (Host * Operation)) (s : State) :
  ai s = None ->
  existsb builds_client calls = false ->
  fst (run_ops calls s) = s
  /\ constructions (snd (run_ops calls s)) = 0
  /\ handles_used (snd (run_ops calls s)) = [].
Proof.
  intros E.
  induction calls as [|[host op] calls IH]; cbn [run_ops fst snd existsb]; intros Hn.
  - repeat split.
  - apply orb_false_iff in Hn. destruct Hn as [Hc Hrest].
    destruct (run_op_skip host op s E Hc) as (Hf & Hk & Hh).
    rewrite Hf. destruct (IH Hrest) as (IHf & IHk & IHh).
    rewrite constructions_app, handles_used_app, Hk, IHk, Hh, IHh.
    repeat split. assumption.
Qed.

Lemma run_ops_app (xs ys : list (Host * Operation)) (s : State) :
  run_ops (xs ++ ys) s =
    (fst (run_ops ys (fst (run_ops xs s))),
     snd (run_ops xs s) ++ snd (run_ops ys (fst (run_ops xs s)))).
Proof.
  revert s. induction xs as [|[host op] xs IH]; intros s; cbn [run_ops app fst snd].
  - destruct (run_ops ys s); reflexivity.
  - rewrite IH. cbn [fst snd]. rewrite app_assoc. reflexivity.
Qed.

Lemma run_ops_cold (calls : list (Host * Operation)) (s : State) :
  ai s = None ->
  instances s = [] ->
  instances (fst (run_ops calls s)) =
    match ai (fst (run_ops calls s)) with Some h => [h] | None => [] end
  /\ constructions (snd (run_ops calls s)) =
       (if existsb builds_client calls then 1 else 0)
  /\ (ai (fst (run_ops calls s)) = None <-> existsb builds_client calls = false)
  /\ (forall h h', In h (handles_used (snd (run_ops calls s))) ->
                   In h' (handles_used (snd (run_ops calls s))) -> h = h').
Proof.
  intros E Ei.
  induction calls as [|[host op] calls IH]; cbn [run_ops fst snd existsb].
  - rewrite E, Ei. repeat split. intros h h' [].
  - destruct (builds_client (host, op)) eqn:Hr; cbn [orb].
    + destruct (run_op_cold host op s E Hr) as (Hf & Hc & Hh).
      set (h0 := {| client_id := length (instances s);
                    apiKey := host_GEMINI_API_KEY host |}) in *.
      rewrite Hf.
      destruct (run_ops_warm calls {| ai := Some h0; instances := instances s ++ [h0] |}
                  h0 eq_refl) as (Wf & Wc & Wh).
      rewrite Wf, constructions_app, handles_used_app, Hc, Wc.
      cbn [ai instances].
      split; [rewrite Ei; reflexivity|]. split; [reflexivity|].
      split; [split; discriminate|].
      intros h h' H1 H2. apply in_app_or in H1. apply in_app_or in H2.
      assert (h = h0) by (destruct H1; auto).
      assert (h' = h0) by (destruct H2; auto).
      congruence.
    + destruct (run_op_skip host op s E Hr) as (Hf & Hc & Hh).
      rewrite Hf, constructions_app, handles_used_app, Hc, Hh.
      exact IH.
Qed.

(** C7, as amended.  Under sequential execution from a fresh module, the
    client handle is built at most once: by the first [getAi] call whose
    constructor call succeeds.  A [transcribeAudio] whose encoding step
    fails never calls [getAi]; a [getAi] whose constructor call throws
    leaves [ai] null, and the next [getAi] runs the constructor again.
    After any sequence of calls the module holds no instance besides the
    one in [ai]; exactly one client was built if some call got to [getAi]
    with a constructor that accepted the key, and none otherwise, in which
    case [ai] is still null; the first such call is the one that builds the
    client; every provider call of the sequence went through the same
    handle; and a later [getAi] returns that handle, builds nothing and
    changes nothing. *)
Theorem client_handle_singleton (calls : list (Host * Operation)) :
  let s := fst (run_ops calls initial_state) in
  let evs := snd (run_ops calls initial_state) in
  length (instances s) <= 1
  /\ instances s = match ai s with Some h => [h] | None => [] end
  /\ constructions evs = (if existsb builds_client calls then 1 else 0)
  /\ (ai s = None <-> existsb builds_client calls = false)
  /\ (forall before call after,
        calls = before ++ call :: after ->
        existsb builds_client before = false ->
        builds_client call = true ->
        fst (run_ops before initial_state) = initial_state
        /\ constructions
             (emitted (run_op (fst call) (snd call)
                         (fst (run_ops before initial_state)))) = 1)
  /\ (forall h h', In h (handles_used evs) -> In h' (handles_used evs) -> h = h')
  /\ (forall host h,
        ai s = Some h ->
        getAi host s = {| outcome := Ok (Some h); final := s; emitted := [] |})
  /\ (forall host e,
        ai s = None ->
        host_new_GoogleGenAI host (host_GEMINI_API_KEY host) = Some e ->
        getAi host s = {| outcome := Throw e; final := s; emitted := [] |}).
Proof.
  cbn zeta.
  destruct (run_ops_cold calls initial_state eq_refl eq_refl) as (Hi & Hc & Hn & Hh).
  split; [|split; [|split; [|split; [|split; [|split; [|split]]]]]].
  - rewrite Hi. destruct (ai (fst (run_ops calls initial_state))); cbn; lia.
  - exact Hi.
  - exact Hc.
  - exact Hn.
  - intros before [host op] rest _ Hb Hr. cbn [fst snd].
    destruct (run_ops_skip before initial_state eq_refl Hb) as (Hf & _ & _).
    rewrite Hf. split; [reflexivity|].
    destruct (run_op_cold host op initial_state eq_refl Hr) as (_ & Hk & _).
    exact Hk.
  - exact Hh.
  - intros host h E. apply getAi_again. exact E.
  - intros host e E C. apply getAi_refused; assumption.
Qed.

(** C7, as stated, fails.  The first invocation of an adapter operation
    need not build the client: a transcription whose read fails returns
    the empty transcription with [ai] still null and no client built, so
    the client is not always built on the first invocation of an
    operation. *)
Lemma first_invocation_may_build_nothing :
  (let r := run_op unreadable_host (OpTranscribeAudio sample_blob) initial_state in
   outcome r = Ok (VTranscription {| text := "" |})
   /\ ai (final r) = None
   /\ constructions (emitted r) = 0)
  /\ ~ (forall host op, constructions (emitted (run_op host op initial_state)) = 1).
Proof.
  split.
  - cbn. repeat split.
  - intros H.
    specialize (H unreadable_host (OpTranscribeAudio sample_blob)).
    cbn in H. discriminate H.
Qed.

(** ** The statements at concrete inputs *)

Lemma transcribeAudio_never_throws_witness :
  host_readAsDataURL unreadable_host sample_blob
    = ReadError (ProgressEvent "error" "NotReadableError")
  /\ outcome (transcribeAudio unreadable_host sample_blob initial_state)
     = Ok {| text := "" |}
  /\ outcome (transcribeAudio rejecting_host sample_blob warm_state)
     = Ok {| text := "" |}.
Proof.
  destruct (transcribeAudio_never_throws unreadable_host sample_blob initial_state)
    as (_ & Hread & _).
  destruct (transcribeAudio_never_throws rejecting_host sample_blob warm_state)
    as (_ & _ & Hprov).
  split; [reflexivity|]. split.
  - apply (Hread (ProgressEvent "error" "NotReadableError")). reflexivity.
  - eapply Hprov.
    + cbn. right. left. reflexivity.
    + reflexivity.
Defined.

Lemma transcribeAudio_text_witness :
  outcome (transcribeAudio (answering_host sample_url (Some "[[NO_SPEECH]]"))
             sample_blob initial_state)
    = Ok {| text := "[[NO_SPEECH]]" |}
  /\ outcome (transcribeAudio (answering_host sample_url None)
                sample_blob initial_state)
     = Ok {| text := "" |}
  /\ outcome (transcribeAudio (answering_host sample_url (Some "xin chao"))
                sample_blob initial_state)
     = Ok {| text := "xin chao" |}.
Proof.
  split; [|split].
  - eapply (transcribeAudio_text (answering_host sample_url (Some "[[NO_SPEECH]]"))
              sample_blob initial_state).
    + cbn. right. right. left. reflexivity.
    + reflexivity.
    + reflexivity.
  - eapply (transcribeAudio_text (answering_host sample_url None)
              sample_blob initial_state).
    + cbn. right. right. left. reflexivity.
    + reflexivity.
    + reflexivity.
  - eapply (transcribeAudio_text (answering_host sample_url (Some "xin chao"))
              sample_blob initial_state).
    + cbn. right. right. left. reflexivity.
    + reflexivity.
    + reflexivity.
    + discriminate.
Defined.

Lemma provider_errors_propagate_witness :
  outcome (createChatSession rejecting_host "gemini-2.5-flash" None initial_state)
    = Throw (ApiError 403 "forbidden")
  /\ outcome (generateContent rejecting_host "gemini-2.5-flash" [PartText "hi"] initial_state)
     = Throw (ApiError 403 "forbidden")
  /\ outcome (generateImage rejecting_host "a red bicycle" warm_state)
     = Throw (ApiError 403 "forbidden").
Proof.
  destruct (provider_errors_propagate rejecting_host initial_state (ApiError 403 "forbidden"))
    as (Hchat & Hcontent & _).
  destruct (provider_errors_propagate rejecting_host warm_state (ApiError 403 "forbidden"))
    as (_ & _ & Himage).
  split; [|split].
  - eapply Hchat.
    + cbn. right. left. reflexivity.
    + reflexivity.
  - eapply Hcontent.
    + cbn. right. left. reflexivity.
    + reflexivity.
  - eapply Himage.
    + cbn. left. reflexivity.
    + reflexivity.
Defined.

Lemma transcribeAudio_mime_witness :
  In (EGenerateContent sample_handle (sample_transcription_request "audio/ogg"))
     (emitted (transcribeAudio (answering_host sample_url None)
                 sample_blob initial_state))
  /\ In (EGenerateContent sample_handle (sample_transcription_request "audio/webm"))
        (emitted (transcribeAudio (answering_host sample_url None)
                    untyped_blob initial_state))
  /\ (exists mime data rest,
        gc_parts (sample_transcription_request "audio/ogg")
          = PartInlineData mime data :: rest
        /\ mime = "audio/ogg")
  /\ (exists mime data rest,
        gc_parts (sample_transcription_request "audio/webm")
          = PartInlineData mime data :: rest
        /\ mime = "audio/webm").
Proof.
  assert (Htyped :
    In (EGenerateContent sample_handle (sample_transcription_request "audio/ogg"))
       (emitted (transcribeAudio (answering_host sample_url None)
                   sample_blob initial_state)))
    by (cbn; right; right; left; reflexivity).
  assert (Huntyped :
    In (EGenerateContent sample_handle (sample_transcription_request "audio/webm"))
       (emitted (transcribeAudio (answering_host sample_url None)
                   untyped_blob initial_state)))
    by (cbn; right; right; left; reflexivity).
  split; [exact Htyped|]. split; [exact Huntyped|]. split.
  - destruct (transcribeAudio_mime _ _ _ _ _ Htyped)
      as (mime & data & rest & Hp & _ & Hty & _).
    exists mime, data, rest. split; [exact Hp|]. apply Hty. discriminate.
  - destruct (transcribeAudio_mime _ _ _ _ _ Huntyped)
      as (mime & data & rest & Hp & _ & _ & Hty).
    exists mime, data, rest. split; [exact Hp|]. apply Hty. reflexivity.
Defined.

Lemma blobToBase64_settles_witness :
  ~ has_comma "no separator here"
  /\ outcome (blobToBase64 (answering_host "no separator here" None)
                sample_blob initial_state) = Ok None
  /\ outcome (blobToBase64 unreadable_host sample_blob initial_state)
     = Throw (ProgressEvent "error" "NotReadableError").
Proof.
  assert (Hno : ~ has_comma "no separator here").
  { unfold has_comma. cbn. intros H.
    repeat (destruct H as [H|H]; [discriminate H|]). exact H. }
  destruct (blobToBase64_settles (answering_host "no separator here" None)
              sample_blob initial_state) as (_ & Hundef).
  destruct (blobToBase64_settles unreadable_host sample_blob initial_state)
    as (Hrej & _).
  split; [exact Hno|]. split.
  - apply (Hundef "no separator here"); [reflexivity|exact Hno].
  - apply Hrej. reflexivity.
Defined.

Lemma generateImage_request_witness :
  obtains_client (answering_host sample_url None) initial_state = true
  /\ exists p,
       sent (emitted (generateImage (answering_host sample_url None)
                        "a red bicycle" initial_state)) = [ReqGenerate p]
       /\ gc_model p = "gemini-2.5-flash-image"
       /\ gc_parts p = [PartText "a red bicycle"].
Proof.
  destruct (generateImage_request (answering_host sample_url None)
              "a red bicycle" initial_state) as (Hshape & Hone).
  split; [reflexivity|].
  destruct (Hone eq_refl) as (p & Hp).
  destruct (Hshape (ReqGenerate p)) as (p' & Heq & Hm & Hparts & _).
  - rewrite Hp. left. reflexivity.
  - injection Heq as <-. exists p. repeat split; assumption.
Defined.

Lemma generateContent_forwards_witness :
  (exists h p,
     sent (emitted (generateContent rejecting_host "gemini-2.5-flash"
                      [PartText "hi"; PartInlineData "image/png" (Some "AAEC")]
                      warm_state)) = [ReqGenerate p]
     /\ gc_parts p = [PartText "hi"; PartInlineData "image/png" (Some "AAEC")]
     /\ outcome (generateContent rejecting_host "gemini-2.5-flash"
                   [PartText "hi"; PartInlineData "image/png" (Some "AAEC")]
                   warm_state)
        = host_generateContent rejecting_host h p)
  /\ outcome (generateContent keyless_host "gemini-2.5-flash" [] initial_state)
     = Throw (OtherError "An API Key must be set when running in a browser").
Proof.
  split.
  - destruct (generateContent_forwards rejecting_host "gemini-2.5-flash"
                [PartText "hi"; PartInlineData "image/png" (Some "AAEC")] warm_state)
      as (_ & Hone & _).
    destruct (Hone eq_refl) as (h & p & _ & Hs & _ & Hp & Ho).
    exists h, p. repeat split; assumption.
  - destruct (generateContent_forwards keyless_host "gemini-2.5-flash" [] initial_state)
      as (_ & _ & Hrefused).
    apply (Hrefused (OtherError "An API Key must be set when running in a browser"));
      reflexivity.
Defined.

Lemma createChatSession_config_witness :
  exists p cfg,
    sent (emitted (createChatSession rejecting_host "gemini-2.5-flash" None initial_state))
      = [ReqChat p]
    /\ cc_config p = Some cfg
    /\ systemInstruction cfg = Some SYSTEM_INSTRUCTION
    /\ forall p',
         In (ReqChat p')
            (sent (emitted (createChatSession (answering_host sample_url None)
                              "gemini-3-pro" (Some []) warm_state))) ->
         cc_config p' = Some cfg.
Proof.
  destruct (createChatSession_config rejecting_host "gemini-2.5-flash" None initial_state)
    as (cfg & fd & prop & Hsys & _ & _ & _ & _ & _ & _ & _ & Hshape & Hone & Hsame).
  destruct (Hone eq_refl) as (p & Hp).
  destruct (Hshape (ReqChat p)) as (p0 & Heq & _ & _ & Hc).
  - rewrite Hp. left. reflexivity.
  - injection Heq as <-. exists p, cfg.
    split; [exact Hp|]. split; [exact Hc|]. split; [exact Hsys|].
    intros p' Hin.
    exact (Hsame (answering_host sample_url None) "gemini-3-pro" (Some []) warm_state p' Hin).
Defined.

Lemma request_payload_deterministic_witness :
  reads_agree (answering_host sample_url (Some "hello")) rejecting_host
    (OpGenerateImage "a red bicycle")
  /\ sent (emitted (run_op (answering_host sample_url (Some "hello"))
                      (OpGenerateImage "a red bicycle") initial_state))
     = sent (emitted (run_op rejecting_host
                        (OpGenerateImage "a red bicycle") warm_state))
  /\ reads_agree (answering_host "data:audio/webm;base64,AAAA" None) rejecting_host
       (OpTranscribeAudio sample_blob)
  /\ sent (emitted (run_op (answering_host "data:audio/webm;base64,AAAA" None)
                      (OpTranscribeAudio sample_blob) initial_state))
     = sent (emitted (run_op rejecting_host
                        (OpTranscribeAudio sample_blob) warm_state)).
Proof.
  split; [exact I|]. split.
  - apply request_payload_deterministic; [exact I|reflexivity].
  - split; [reflexivity|].
    apply request_payload_deterministic; reflexivity.
Defined.

Lemma client_handle_singleton_witness :
  builds_client (keyless_host, OpGenerateImage "a red bicycle") = false
  /\ constructions
       (emitted (run_op (answering_host sample_url (Some "hello"))
                   (OpTranscribeAudio untyped_blob)
                   (fst (run_ops [ (unreadable_host, OpTranscribeAudio sample_blob);
                                   (keyless_host, OpGenerateImage "a red bicycle") ]
                           initial_state)))) = 1
  /\ constructions (snd (run_ops sample_calls initial_state)) = 1
  /\ getAi keyless_host (fst (run_ops sample_calls initial_state))
     = {| outcome := Ok (Some {| client_id := 0; apiKey := Some "key" |});
          final := fst (run_ops sample_calls initial_state);
          emitted := [] |}.
Proof.
  destruct (client_handle_singleton sample_calls)
    as (_ & _ & Hcount & _ & Hfirst & _ & Hagain & _).
  split; [reflexivity|]. split; [|split].
  - apply (Hfirst [ (unreadable_host, OpTranscribeAudio sample_blob);
                    (keyless_host, OpGenerateImage "a red bicycle") ]
                  (answering_host sample_url (Some "hello"), OpTranscribeAudio untyped_blob)
                  [(rejecting_host, OpCreateChatSession "gemini-2.5-flash" None)]);
      reflexivity.
  - exact Hcount.
  - apply Hagain. reflexivity.
Defined.

(** ** Further properties of the encoding step *)

Lemma split_at_comma (a b : string) :
  ~ has_comma a ->
  split comma (a ++ String comma b) = a :: split comma b.
Proof.
  unfold has_comma. induction a as [|c a IH]; cbn; intros H.
  - reflexivity.
  - destruct (Ascii.eqb_spec c comma) as [->|Hc].
    + exfalso. apply H. now left.
    + rewrite IH; [reflexivity|]. intros Hin. apply H. now right.
Qed.

Lemma blobToBase64_read_ok (host : Host) (blob : Blob) (s : State) (dataUrl : string) :
  host_readAsDataURL host blob = ReadOk dataUrl ->
  blobToBase64 host blob s =
    {| outcome := Ok (index (split comma dataUrl) 1);
       final := s;
       emitted := [EReadAsDataURL blob] |}.
Proof. intros Hr. unfold_js. cbn. rewrite Hr. reflexivity. Qed.

(** X1. When the read yields a data URL of the usual shape, a header
    without a comma, one comma, then a payload without a comma,
    [blobToBase64] resolves with exactly the payload. *)
Theorem blobToBase64_payload (host : Host) (blob : Blob) (s : State)
    (header payload : string) :
  host_readAsDataURL host blob = ReadOk (header ++ String comma payload) ->
  ~ has_comma header ->
  ~ has_comma payload ->
  outcome (blobToBase64 host blob s) = Ok (Some payload).
Proof.
  intros Hr Hh Hp. rewrite (blobToBase64_read_ok host blob s _ Hr). cbn [outcome].
  rewrite (split_at_comma header payload Hh), (split_no_comma payload Hp).
  reflexivity.
Qed.

(** X2. Only the text between the first and the second comma is kept: if
    the data URL has a second comma, what [blobToBase64] resolves with stops
    there, and everything after it, the actual payload of a URL whose media
    type contains a comma, is dropped. *)
Theorem blobToBase64_second_comma (host : Host) (blob : Blob) (s : State)
    (header middle tail : string) :
  host_readAsDataURL host blob
    = ReadOk (header ++ String comma (middle ++ String comma tail)) ->
  ~ has_comma header ->
  ~ has_comma middle ->
  outcome (blobToBase64 host blob s) = Ok (Some middle).
Proof.
  intros Hr Hh Hm. rewrite (blobToBase64_read_ok host blob s _ Hr). cbn [outcome].
  rewrite (split_at_comma header _ Hh), (split_at_comma middle tail Hm).
  reflexivity.
Qed.

(** X3. [blobToBase64] always settles, and it is local: whatever the read
    does, the module state is unchanged, no client is built and nothing is
    sent to the provider. *)
Theorem blobToBase64_local (host : Host) (blob : Blob) (s : State) :
  outcome (blobToBase64 host blob s) <> Pending
  /\ final (blobToBase64 host blob s) = s
  /\ constructions (emitted (blobToBase64 host blob s)) = 0
  /\ sent (emitted (blobToBase64 host blob s)) = [].
Proof.
  unfold_js. cbn.
  destruct (host_readAsDataURL host blob) as [u|ev]; cbn;
    repeat split; discriminate.
Qed.

(** X4. The [loadend] handler also runs after a failed read, where
    [reader.result] is null: the handler then throws a [TypeError] that
    nothing catches.  This happens exactly when the read fails, and the
    promise is still rejected with the reader's own error event. *)
Theorem blobToBase64_uncaught (host : Host) (blob : Blob) (s : State) :
  (In (EUncaught (TypeError "Cannot read properties of null"))
      (emitted (blobToBase64 host blob s))
   <-> exists ev, host_readAsDataURL host blob = ReadError ev)
  /\ (forall ev,
        host_readAsDataURL host blob = ReadError ev ->
        blobToBase64 host blob s =
          {| outcome := Throw ev;
             final := s;
             emitted := [ EReadAsDataURL blob;
                          EUncaught (TypeError "Cannot read properties of null") ] |}).
Proof.
  split.
  - unfold_js. cbn.
    destruct (host_readAsDataURL host blob) as [u|ev]; cbn; split.
    + intros Hin; which_event.
    + intros [ev Hev]. discriminate Hev.
    + intros _. exists ev. reflexivity.
    + intros _. right. left. reflexivity.
  - intros ev Hr. unfold_js. cbn. rewrite Hr. reflexivity.
Qed.

(** ** Further properties of transcription *)

Lemma obtains_client_false (host : Host) (s : State) :
  obtains_client host s = false ->
  ai s = None
  /\ exists e, host_new_GoogleGenAI host (host_GEMINI_API_KEY host) = Some e.
Proof.
  unfold obtains_client. destruct (ai s); [discriminate|].
  destruct (host_new_GoogleGenAI host (host_GEMINI_API_KEY host)) as [e|];
    [|discriminate].
  intros _. split; [reflexivity|]. exists e. reflexivity.
Qed.

Lemma obtains_client_refused (host : Host) (s : State) (e : JsError) :
  ai s = None ->
  host_new_GoogleGenAI host (host_GEMINI_API_KEY host) = Some e ->
  obtains_client host s = false.
Proof. intros E C. unfold obtains_client. rewrite E, C. reflexivity. Qed.

Lemma transcribeAudio_sent_ok (host : Host) (blob : Blob) (s : State) (dataUrl : string) :
  host_readAsDataURL host blob = ReadOk dataUrl ->
  (forall r,
      In r (sent (emitted (transcribeAudio host blob s))) ->
      r = ReqGenerate
            {| gc_model := TRANSCRIPTION_MODEL;
               gc_parts :=
                 [ PartInlineData (js_or (Some (blob_type blob)) DEFAULT_AUDIO_TYPE)
                     (index (split comma dataUrl) 1);
                   PartText TRANSCRIPTION_PROMPT ];
               gc_config := None |})
  /\ (obtains_client host s = true ->
      sent (emitted (transcribeAudio host blob s)) =
        [ ReqGenerate
            {| gc_model := TRANSCRIPTION_MODEL;
               gc_parts :=
                 [ PartInlineData (js_or (Some (blob_type blob)) DEFAULT_AUDIO_TYPE)
                     (index (split comma dataUrl) 1);
                   PartText TRANSCRIPTION_PROMPT ];
               gc_config := None |} ]).
Proof.
  intros Hr. unfold obtains_client. unfold_js. cbn. rewrite Hr. cbn.
  client_cases host s h0 E ce C; try provider_reply R; split;
    try (intros r Hin; cbn in Hin;
         first [contradiction | destruct Hin as [<-|[]]; reflexivity]);
    try discriminate; intros _; reflexivity.
Qed.

(** X5. When the read yields a data URL of the usual shape (header, one
    comma, payload), every request [transcribeAudio] sends has the model
    [gemini-3-flash-preview], no config, and two parts, the inline audio
    whose data is the payload after the comma, followed by the fixed
    instruction text; and whenever [getAi] comes back with a client it
    sends exactly one such request. *)
Theorem transcribeAudio_request_shape (host : Host) (blob : Blob) (s : State)
    (header payload : string) :
  host_readAsDataURL host blob = ReadOk (header ++ String comma payload) ->
  ~ has_comma header ->
  ~ has_comma payload ->
  exists mime,
    (forall r,
        In r (sent (emitted (transcribeAudio host blob s))) ->
        r = ReqGenerate
              {| gc_model := "gemini-3-flash-preview";
                 gc_parts := [ PartInlineData mime (Some payload);
                               PartText TRANSCRIPTION_PROMPT ];
                 gc_config := None |})
    /\ (obtains_client host s = true ->
        sent (emitted (transcribeAudio host blob s)) =
          [ ReqGenerate
              {| gc_model := "gemini-3-flash-preview";
                 gc_parts := [ PartInlineData mime (Some payload);
                               PartText TRANSCRIPTION_PROMPT ];
                 gc_config := None |} ]).
Proof.
  intros Hr Hh Hp. eexists.
  destruct (transcribeAudio_sent_ok host blob s _ Hr) as (Hall & Hone).
  rewrite (split_at_comma header payload Hh), (split_no_comma payload Hp) in Hall, Hone.
  split; [exact Hall|exact Hone].
Qed.

(** X6. Nothing checks the result of the encoding step: when the read
    yields a data URL without a comma and [getAi] comes back with a client,
    [transcribeAudio] still calls the provider, with an inline part whose
    data is [undefined]. *)
Theorem transcribeAudio_undefined_data (host : Host) (blob : Blob) (s : State)
    (dataUrl : string) :
  host_readAsDataURL host blob = ReadOk dataUrl ->
  ~ has_comma dataUrl ->
  obtains_client host s = true ->
  exists mime,
    sent (emitted (transcribeAudio host blob s)) =
      [ ReqGenerate
          {| gc_model := "gemini-3-flash-preview";
             gc_parts := [ PartInlineData mime None;
                           PartText TRANSCRIPTION_PROMPT ];
             gc_config := None |} ].
Proof.
  intros Hr Hc Ho. eexists.
  destruct (transcribeAudio_sent_ok host blob s _ Hr) as (_ & Hone).
  rewrite (Hone Ho), (split_no_comma dataUrl Hc). reflexivity.
Qed.

(** X7. A transcription whose read fails stays local: nothing is sent to
    the provider, no client is built and the module state is unchanged. *)
Theorem transcribeAudio_failed_read_is_local (host : Host) (blob : Blob)
    (s : State) (ev : JsError) :
  host_readAsDataURL host blob = ReadError ev ->
  sent (emitted (transcribeAudio host blob s)) = []
  /\ constructions (emitted (transcribeAudio host blob s)) = 0
  /\ final (transcribeAudio host blob s) = s.
Proof.
  intros Hr. unfold_js. cbn. rewrite Hr. cbn. repeat split.
Qed.

(** X8. [transcribeAudio] reads the blob exactly once, and before anything
    else it does. *)
Theorem transcribeAudio_reads_once (host : Host) (blob : Blob) (s : State) :
  exists rest,
    emitted (transcribeAudio host blob s) = EReadAsDataURL blob :: rest
    /\ forall b, ~ In (EReadAsDataURL b) rest.
Proof.
  unfold_js. cbn.
  destruct (host_readAsDataURL host blob) as [u|ev]; cbn.
  - client_cases host s h0 E ce C; try provider_reply R;
      eexists; (split; [reflexivity|]);
      intros b Hin; cbn in Hin; which_event.
  - eexists; (split; [reflexivity|]). intros b Hin; cbn in Hin; which_event.
Qed.

Lemma transcribeAudio_run_ok (host : Host) (blob : Blob) (s : State) (dataUrl : string) :
  host_readAsDataURL host blob = ReadOk dataUrl ->
  obtains_client host s = true ->
  exists h p,
    In (EGenerateContent h p) (emitted (transcribeAudio host blob s))
    /\ (forall h' p',
          In (EGenerateContent h' p') (emitted (transcribeAudio host blob s)) ->
          h' = h /\ p' = p)
    /\ outcome (transcribeAudio host blob s) =
         match host_generateContent host h p with
         | Ok resp => Ok {| text := js_or (resp_text resp) "" |}
         | Throw _ => Ok {| text := "" |}
         | Pending => Pending
         end
    /\ (forall msg e,
          In (EConsoleError msg e) (emitted (transcribeAudio host blob s)) <->
          msg = "Gemini Transcription error"
          /\ host_generateContent host h p = Throw e).
Proof.
  intros Hr. unfold obtains_client. unfold_js. cbn. rewrite Hr. cbn.
  client_cases host s h0 E ce C; try (intros Hd; discriminate Hd); intros _;
    provider_reply R; do 2 eexists;
    (split; [first [left; reflexivity | right; left; reflexivity
                   | right; right; left; reflexivity]|]);
    (split; [intros h' p' Hin; which_event; split; reflexivity|]);
    rewrite R; (split; [reflexivity|]);
    intros msg e'; (split; [intros Hin|intros [-> He]]);
    try discriminate He;
    try (which_event; fail);
    try (repeat (destruct Hin as [Hin|Hin]; try discriminate Hin);
         [injection Hin as <- <-; split; reflexivity | destruct Hin]);
    try (injection He as <-; cbn; tauto).
Qed.

Lemma transcribeAudio_run_refused (host : Host) (blob : Blob) (s : State)
    (dataUrl : string) (e : JsError) :
  host_readAsDataURL host blob = ReadOk dataUrl ->
  ai s = None ->
  host_new_GoogleGenAI host (host_GEMINI_API_KEY host) = Some e ->
  transcribeAudio host blob s =
    {| outcome := Ok {| text := "" |};
       final := s;
       emitted := [ EReadAsDataURL blob;
                    EConsoleError "Gemini Transcription error" e ] |}.
Proof.
  intros Hr E C. unfold_js. cbn. rewrite Hr. cbn. rewrite E. cbn. rewrite C.
  reflexivity.
Qed.

Lemma transcribeAudio_no_call (host : Host) (blob : Blob) (s : State)
    (ev : JsError) (h : GoogleGenAI) (p : GenerateContentParameters) :
  host_readAsDataURL host blob = ReadError ev ->
  ~ In (EGenerateContent h p) (emitted (transcribeAudio host blob s)).
Proof.
  intros Hr. unfold_js. cbn. rewrite Hr. cbn. intros Hin. which_event.
Qed.

Lemma js_or_empty (x : option string) :
  js_or x "" = "" <-> (x = None \/ x = Some "").
Proof.
  destruct x as [[|c t]|]; cbn; split; intros H.
  - right. reflexivity.
  - reflexivity.
  - discriminate H.
  - destruct H as [H|H]; discriminate H.
  - left. reflexivity.
  - reflexivity.
Qed.

(** X9. The empty transcription says little: [transcribeAudio] returns
    [{ text: "" }] exactly when the read failed, or the constructor threw
    while [ai] was null, or the provider call it made threw, or that call
    succeeded with no text or with the empty text. *)
Theorem transcribeAudio_empty_iff (host : Host) (blob : Blob) (s : State) :
  outcome (transcribeAudio host blob s) = Ok {| text := "" |}
  <->
  ((exists ev, host_readAsDataURL host blob = ReadError ev)
   \/ (exists dataUrl e,
         host_readAsDataURL host blob = ReadOk dataUrl
         /\ ai s = None
         /\ host_new_GoogleGenAI host (host_GEMINI_API_KEY host) = Some e)
   \/ (exists h p,
         In (EGenerateContent h p) (emitted (transcribeAudio host blob s))
         /\ ((exists e, host_generateContent host h p = Throw e)
             \/ (exists resp,
                   host_generateContent host h p = Ok resp
                   /\ (resp_text resp = None \/ resp_text resp = Some ""))))).
Proof.
  destruct (host_readAsDataURL host blob) as [u|ev] eqn:Hr.
  - destruct (obtains_client host s) eqn:Hc.
    + destruct (transcribeAudio_run_ok host blob s u Hr Hc)
        as (h & p & Hin & Huniq & Ho & _).
      rewrite Ho. split.
      * intros Hempty. right. right. exists h, p. split; [exact Hin|].
        destruct (host_generateContent host h p) as [resp|e|].
        -- right. exists resp. split; [reflexivity|].
           injection Hempty as Ht. apply js_or_empty. exact Ht.
        -- left. exists e. reflexivity.
        -- discriminate Hempty.
      * intros [[ev Hev]|[(u' & e & _ & E & C)|(h' & p' & Hin' & Hrep)]].
        -- discriminate Hev.
        -- rewrite (obtains_client_refused host s e E C) in Hc. discriminate Hc.
        -- destruct (Huniq h' p' Hin') as [-> ->].
           destruct Hrep as [[e He]|(resp & Hresp & Ht)].
           ++ rewrite He. reflexivity.
           ++ rewrite Hresp. apply js_or_empty in Ht. rewrite Ht. reflexivity.
    + destruct (obtains_client_false host s Hc) as (E & e & C).
      rewrite (transcribeAudio_run_refused host blob s u e Hr E C). cbn. split.
      * intros _. right. left. exists u, e. repeat split; assumption.
      * intros _. reflexivity.
  - split.
    + intros _. left. exists ev. reflexivity.
    + intros _. unfold_js. cbn. rewrite Hr. reflexivity.
Qed.

(** X10. No time limit is set locally: [transcribeAudio] fails to return
    exactly when the provider call it made never settles. *)
Theorem transcribeAudio_pending_iff (host : Host) (blob : Blob) (s : State) :
  outcome (transcribeAudio host blob s) = Pending
  <->
  exists h p,
    In (EGenerateContent h p) (emitted (transcribeAudio host blob s))
    /\ host_generateContent host h p = Pending.
Proof.
  destruct (host_readAsDataURL host blob) as [u|ev] eqn:Hr.
  - destruct (obtains_client host s) eqn:Hc.
    + destruct (transcribeAudio_run_ok host blob s u Hr Hc)
        as (h & p & Hin & Huniq & Ho & _).
      rewrite Ho. split.
      * intros Hp. exists h, p. split; [exact Hin|].
        destruct (host_generateContent host h p);
          [discriminate Hp|discriminate Hp|reflexivity].
      * intros (h' & p' & Hin' & Hrep).
        destruct (Huniq h' p' Hin') as [-> ->]. rewrite Hrep. reflexivity.
    + destruct (obtains_client_false host s Hc) as (E & e & C).
      rewrite (transcribeAudio_run_refused host blob s u e Hr E C). cbn. split.
      * discriminate.
      * intros (h & p & Hin & _). which_event.
  - split.
    + unfold_js. cbn. rewrite Hr. cbn. discriminate.
    + intros (h & p & Hin & _).
      exfalso. exact (transcribeAudio_no_call host blob s ev h p Hr Hin).
Qed.

(** X11. What [transcribeAudio] logs is what it swallowed: an error [e]
    appears in a [console.error] entry exactly when the read failed with
    [e], or the constructor threw [e] while [ai] was null, or the provider
    call threw [e], and always under the message
    [Gemini Transcription error]. *)
Theorem transcribeAudio_logs_iff (host : Host) (blob : Blob) (s : State)
    (msg : string) (e : JsError) :
  In (EConsoleError msg e) (emitted (transcribeAudio host blob s))
  <->
  (msg = "Gemini Transcription error"
   /\ (host_readAsDataURL host blob = ReadError e
       \/ ((exists dataUrl, host_readAsDataURL host blob = ReadOk dataUrl)
           /\ ai s = None
           /\ host_new_GoogleGenAI host (host_GEMINI_API_KEY host) = Some e)
       \/ exists h p,
            In (EGenerateContent h p) (emitted (transcribeAudio host blob s))
            /\ host_generateContent host h p = Throw e)).
Proof.
  destruct (host_readAsDataURL host blob) as [u|ev] eqn:Hr.
  - destruct (obtains_client host s) eqn:Hc.
    + destruct (transcribeAudio_run_ok host blob s u Hr Hc)
        as (h & p & Hin & Huniq & _ & Hlog).
      rewrite (Hlog msg e). split.
      * intros [Hm He]. split; [exact Hm|]. right. right. exists h, p.
        split; assumption.
      * intros [Hm [Hd|[(_ & E & C)|(h' & p' & Hin' & He)]]].
        -- discriminate Hd.
        -- rewrite (obtains_client_refused host s e E C) in Hc. discriminate Hc.
        -- destruct (Huniq h' p' Hin') as [-> ->]. split; assumption.
    + destruct (obtains_client_false host s Hc) as (E & e0 & C).
      rewrite (transcribeAudio_run_refused host blob s u e0 Hr E C). cbn. split.
      * intros [Hd|[Hin|[]]]; [discriminate Hd|].
        injection Hin as <- <-. split; [reflexivity|].
        right. left. split; [exists u; reflexivity|]. split; assumption.
      * intros [-> [Hd|[(_ & _ & C')|(h & p & Hin & _)]]].
        -- discriminate Hd.
        -- right. left. congruence.
        -- which_event.
  - split.
    + unfold_js. cbn. rewrite Hr. cbn. intros Hin.
      repeat (destruct Hin as [Hin|Hin]; try discriminate Hin); [|destruct Hin].
      injection Hin as <- <-. split; [reflexivity|left; reflexivity].
    + intros [-> [He|[((u & Hd) & _)|(h & p & Hin & _)]]].
      * injection He as <-. unfold_js. cbn. rewrite Hr. cbn. tauto.
      * discriminate Hd.
      * exfalso. exact (transcribeAudio_no_call host blob s ev h p Hr Hin).
Qed.

(** ** Further properties of the client and of the fail-loud operations *)

(** X12. The credential is read once by the constructor call that
    succeeds: after any sequence of calls, [ai] holds the client built by
    the first call that got to [getAi] with a constructor accepting the
    key, bound to the key the environment had at that call, and every
    provider call of the sequence went through it, whatever the key was
    before or later. *)
Theorem credential_bound_at_first_use (before after : list (Host * Operation))
    (call : Host * Operation) :
  existsb builds_client before = false ->
  builds_client call = true ->
  ai (fst (run_ops (before ++ call :: after) initial_state))
    = Some {| client_id := 0; apiKey := host_GEMINI_API_KEY (fst call) |}
  /\ (forall h,
        In h (handles_used (snd (run_ops (before ++ call :: after) initial_state))) ->
        h = {| client_id := 0; apiKey := host_GEMINI_API_KEY (fst call) |}).
Proof.
  intros Hb Hr. destruct call as [host op]. cbn [fst].
  rewrite run_ops_app. cbn [fst snd].
  destruct (run_ops_skip before initial_state eq_refl Hb) as (Hf & _ & Hh).
  rewrite handles_used_app, Hf, Hh. cbn [app run_ops fst snd].
  destruct (run_op_cold host op initial_state eq_refl Hr) as (Hfin & _ & Hused).
  cbn [initial_state instances length app] in Hfin, Hused.
  rewrite Hfin.
  destruct (run_ops_warm after
              {| ai := Some {| client_id := 0; apiKey := host_GEMINI_API_KEY host |};
                 instances := [{| client_id := 0; apiKey := host_GEMINI_API_KEY host |}] |}
              _ eq_refl) as (Wf & _ & Wh).
  rewrite Wf. split; [reflexivity|].
  intros h Hin. rewrite handles_used_app in Hin.
  apply in_app_or in Hin. destruct Hin; auto.
Qed.


(** X14. [createChatSession] hands back what the provider returned:
    whenever [getAi] comes back with a client it makes one [chats.create]
    call and its outcome is that call's outcome, session or error, with
    nothing wrapped around it; when the constructor throws instead, that
    error is its outcome and nothing is sent. *)
Theorem createChatSession_returns_session (host : Host) (model : string)
    (history : option (list Content)) (s : State) :
  (obtains_client host s = true ->
   exists h p,
     handles_used (emitted (createChatSession host model history s)) = [h]
     /\ sent (emitted (createChatSession host model history s)) = [ReqChat p]
     /\ outcome (createChatSession host model history s) = host_chats_create host h p)
  /\ (forall e,
        ai s = None ->
        host_new_GoogleGenAI host (host_GEMINI_API_KEY host) = Some e ->
        sent (emitted (createChatSession host model history s)) = []
        /\ outcome (createChatSession host model history s) = Throw e).
Proof.
  split.
  - unfold obtains_client. unfold_js. cbn. client_cases host s h0 E ce C;
      try discriminate; intros _; do 2 eexists; repeat split.
  - intros e E C. unfold_js. cbn. rewrite E. cbn. rewrite C. cbn.
    split; reflexivity.
Qed.

(** X15. [generateImage] is [generateContent] at the image model with the
    prompt as its only part: same outcome, same state, same trace. *)
Theorem generateImage_is_generateContent (host : Host) (prompt : string) (s : State) :
  generateImage host prompt s
  = generateContent host "gemini-2.5-flash-image" [PartText prompt] s.
Proof. reflexivity. Qed.

(** ** The further properties at concrete inputs *)

Lemma blobToBase64_payload_witness :
  outcome (blobToBase64 (answering_host sample_url None) sample_blob initial_state)
  = Ok (Some "AAEC").
Proof.
  apply (blobToBase64_payload (answering_host sample_url None) sample_blob
           initial_state "data:audio/ogg;base64" "AAEC").
  - reflexivity.
  - no_comma.
  - no_comma.
Defined.

Lemma blobToBase64_second_comma_witness :
  outcome (blobToBase64 (answering_host codecs_url None) sample_blob initial_state)
  = Ok (Some "vorbis;base64").
Proof.
  apply (blobToBase64_second_comma (answering_host codecs_url None) sample_blob
           initial_state "data:audio/ogg;codecs=opus" "vorbis;base64" "AAEC").
  - reflexivity.
  - no_comma.
  - no_comma.
Defined.

Lemma blobToBase64_uncaught_witness :
  In (EUncaught (TypeError "Cannot read properties of null"))
     (emitted (blobToBase64 unreadable_host sample_blob initial_state))
  /\ outcome (blobToBase64 unreadable_host sample_blob initial_state)
     = Throw (ProgressEvent "error" "NotReadableError").
Proof.
  destruct (blobToBase64_uncaught unreadable_host sample_blob initial_state)
    as (Hiff & Hrun).
  split.
  - apply Hiff. exists (ProgressEvent "error" "NotReadableError"). reflexivity.
  - rewrite (Hrun (ProgressEvent "error" "NotReadableError") eq_refl). reflexivity.
Defined.

Lemma transcribeAudio_request_shape_witness :
  exists mime,
    sent (emitted (transcribeAudio (answering_host sample_url None)
                     sample_blob initial_state)) =
      [ ReqGenerate
          {| gc_model := "gemini-3-flash-preview";
             gc_parts := [ PartInlineData mime (Some "AAEC");
                           PartText TRANSCRIPTION_PROMPT ];
             gc_config := None |} ].
Proof.
  destruct (transcribeAudio_request_shape (answering_host sample_url None) sample_blob
              initial_state "data:audio/ogg;base64" "AAEC")
    as (mime & _ & Hone).
  - reflexivity.
  - no_comma.
  - no_comma.
  - exists mime. apply Hone. reflexivity.
Defined.

Lemma transcribeAudio_undefined_data_witness :
  exists mime,
    sent (emitted (transcribeAudio (answering_host "no separator here" None)
                     sample_blob warm_state)) =
      [ ReqGenerate
          {| gc_model := "gemini-3-flash-preview";
             gc_parts := [ PartInlineData mime None;
                           PartText TRANSCRIPTION_PROMPT ];
             gc_config := None |} ].
Proof.
  apply (transcribeAudio_undefined_data (answering_host "no separator here" None)
           sample_blob warm_state "no separator here").
  - reflexivity.
  - no_comma.
  - reflexivity.
Defined.

Lemma transcribeAudio_failed_read_is_local_witness :
  sent (emitted (transcribeAudio unreadable_host sample_blob warm_state)) = []
  /\ constructions (emitted (transcribeAudio unreadable_host sample_blob warm_state)) = 0
  /\ final (transcribeAudio unreadable_host sample_blob warm_state) = warm_state.
Proof.
  apply (transcribeAudio_failed_read_is_local unreadable_host sample_blob warm_state
           (ProgressEvent "error" "NotReadableError")).
  reflexivity.
Defined.

Lemma transcribeAudio_empty_iff_witness :
  outcome (transcribeAudio rejecting_host sample_blob warm_state) = Ok {| text := "" |}
  /\ outcome (transcribeAudio (answering_host sample_url (Some "")) sample_blob warm_state)
     = Ok {| text := "" |}
  /\ outcome (transcribeAudio keyless_host sample_blob initial_state)
     = Ok {| text := "" |}.
Proof.
  split; [|split].
  - apply (transcribeAudio_empty_iff rejecting_host sample_blob warm_state).
    right. right. do 2 eexists. split.
    + cbn. right. left. reflexivity.
    + left. eexists. reflexivity.
  - apply (transcribeAudio_empty_iff (answering_host sample_url (Some ""))
             sample_blob warm_state).
    right. right. do 2 eexists. split.
    + cbn. right. left. reflexivity.
    + right. eexists. split; [reflexivity|]. right. reflexivity.
  - apply (transcribeAudio_empty_iff keyless_host sample_blob initial_state).
    right. left. do 2 eexists. repeat split.
Defined.

Lemma transcribeAudio_pending_iff_witness :
  outcome (transcribeAudio pending_host sample_blob initial_state) = Pending.
Proof.
  apply (transcribeAudio_pending_iff pending_host sample_blob initial_state).
  do 2 eexists. split.
  - cbn. right. right. left. reflexivity.
  - reflexivity.
Defined.

Lemma transcribeAudio_logs_iff_witness :
  In (EConsoleError "Gemini Transcription error" (ApiError 403 "forbidden"))
     (emitted (transcribeAudio rejecting_host sample_blob warm_state))
  /\ In (EConsoleError "Gemini Transcription error"
           (OtherError "An API Key must be set when running in a browser"))
        (emitted (transcribeAudio keyless_host sample_blob initial_state)).
Proof.
  split.
  - apply (transcribeAudio_logs_iff rejecting_host sample_blob warm_state).
    split; [reflexivity|]. right. right. do 2 eexists. split.
    + cbn. right. left. reflexivity.
    + reflexivity.
  - apply (transcribeAudio_logs_iff keyless_host sample_blob initial_state).
    split; [reflexivity|]. right. left.
    split; [eexists; reflexivity|]. split; reflexivity.
Defined.

Lemma credential_bound_at_first_use_witness :
  ai (fst (run_ops sample_calls initial_state))
  = Some {| client_id := 0; apiKey := Some "key" |}.
Proof.
  apply (credential_bound_at_first_use
           [ (unreadable_host, OpTranscribeAudio sample_blob);
             (keyless_host, OpGenerateImage "a red bicycle") ]
           [(rejecting_host, OpCreateChatSession "gemini-2.5-flash" None)]
           (answering_host sample_url (Some "hello"), OpTranscribeAudio untyped_blob)).
  - reflexivity.
  - reflexivity.
Defined.

Lemma createChatSession_returns_session_witness :
  outcome (createChatSession (answering_host sample_url None) "gemini-2.5-flash"
             None initial_state)
    = Ok {| chat_session := 7 |}
  /\ outcome (createChatSession keyless_host "gemini-2.5-flash" None initial_state)
     = Throw (OtherError "An API Key must be set when running in a browser").
Proof.
  split.
  - destruct (createChatSession_returns_session (answering_host sample_url None)
                "gemini-2.5-flash" None initial_state) as (Hone & _).
    destruct (Hone eq_refl) as (h & p & _ & _ & Ho).
    rewrite Ho. reflexivity.
  - destruct (createChatSession_returns_session keyless_host
                "gemini-2.5-flash" None initial_state) as (_ & Hrefused).
    apply (Hrefused (OtherError "An API Key must be set when running in a browser"));
      reflexivity.
Defined.
